(** * Unsaid spaCy service ([spacy-service/app.py])

    A shallow embedding of the request handler of the annotation service
    and the properties of its request/response contract.

    - A Python [str] is a sequence of Unicode code points ([list N]), so
      that [len] is the number of code points.
    - The spaCy pipeline, the case mappings [str.lower] / [str.upper] and
      the field validators of pydantic are not part of the repository:
      the development is parametric in them (Section variables).
    - The handler calls the pipeline and may raise: it is written in a
      small state-and-exception monad whose state is the log of the texts
      handed to the pipeline. *)

From Stdlib Require Import NArith Ascii String PrimFloat.
From stdpp Require Import base option list gmap.

Set Default Proof Using "Type".
Set Warnings "-inexact-float,-register-all".
Local Open Scope nat_scope.

(** ** Python strings *)

Definition str : Type := list N.

(** A literal of the source, character by character. *)
Definition lit (s : string) : str :=
  (λ a, N_of_ascii a) <$> list_ascii_of_string s.

(** The empty string literal. *)
Definition empty : str := [].

(** [len(s)] *)
Definition len (s : str) : nat := length s.

(** Truth value of a [str]: the empty string is falsy. *)
Definition str_truthy (s : str) : bool :=
  match s with [] => false | _ :: _ => true end.

(** [a or b] on strings. *)
Definition str_or (a b : str) : str :=
  if str_truthy a then a else b.

(** Truth value of an [Optional[bool]]: [None] and [False] are falsy. *)
Definition optbool_truthy (o : option bool) : bool :=
  match o with Some true => true | _ => false end.

(** ** JSON values (request bodies, and the elements of [hits]) *)

Inductive json : Type :=
  | JNull
  | JBool (b : bool)
  | JNum (mantissa exponent : Z)
  | JStr (s : str)
  | JArr (items : list json)
  | JObj (members : list (str * json)).

(** ** What the pipeline returns *)

Module Token.
(** [head] is a token of the same document; the handler only ever reads
    its position [.i], so a head is represented by that position.
    [None] stands for Python's [None]. *)
Record t : Type := mk {
  text : str;
  lemma_ : str;
  pos_ : str;
  head : option nat;
  dep_ : str
}.
End Token.

Module Span.
Record t : Type := mk {
  start_char : nat;
  end_char : nat
}.
End Span.

Module Doc.
(** Iterating a [Doc] yields [tokens]; [sents] is what iterating
    [doc.sents] yields (the handler reads it only under the
    [has_annotation] guard). *)
Record t : Type := mk {
  tokens : list Token.t;
  sents : list Span.t;
  has_annotation : str → bool
}.
End Doc.

(** A pipeline maps a text to a document, or raises ([None]). *)
Definition pipeline : Type := str → option Doc.t.

(** ** The request *)

Module ProcessBody.
Record t : Type := mk {
  text : str;
  wantTokens : option bool;
  wantSents : option bool;
  wantDeps : option bool
}.
End ProcessBody.

Module Request.
(** The headers of a request, in order, names in lower case.
    [get] returns the value of the first header of that name. *)
Record t : Type := mk {
  headers : list (str * str)
}.

Fixpoint lookup_header (key : str) (hs : list (str * str)) : option str :=
  match hs with
  | [] => None
  | (k, v) :: rest => if decide (k = key) then Some v else lookup_header key rest
  end.

Definition get (req : t) (key : str) : option str :=
  lookup_header key (headers req).
End Request.

(** ** The response *)

Module TokenRecord.
Record t : Type := mk {
  text : str;
  lemma : str;
  pos : str;
  i : nat
}.
End TokenRecord.

Module SentenceSpan.
Record t : Type := mk {
  start : nat;
  end_ : nat
}.
End SentenceSpan.

Module DependencyEdge.
Record t : Type := mk {
  i : nat;
  head : option nat;
  dep : str
}.
End DependencyEdge.

Module Sarcasm.
Record t : Type := mk {
  present : bool;
  score : float
}.
End Sarcasm.

Module Context.
Record t : Type := mk {
  label : str;
  score : float
}.
End Context.

Module PhraseEdges.
Record t : Type := mk {
  hits : list json
}.
End PhraseEdges.

Module Response.
Record t : Type := mk {
  tokens : list TokenRecord.t;
  sents : list SentenceSpan.t;
  deps : list DependencyEdge.t;
  sarcasm : Sarcasm.t;
  context : Context.t;
  phraseEdges : PhraseEdges.t
}.
End Response.

(** The answer of the liveness check. *)
Module Health.
Record t : Type := mk {
  status : str;
  model : str
}.
End Health.

(** ** Exceptions and the handler monad *)

(** [RequestValidationError] is what the framework raises when the body
    does not validate against [ProcessBody]; [PipelineError] is any
    exception escaping the pipeline call. *)
Inductive exception : Type :=
  | HTTPException (status_code : nat) (detail : str)
  | RequestValidationError
  | PipelineError.

(** The log of the texts handed to the pipeline, oldest first. *)
Definition parses : Type := list str.

Definition handler (A : Type) : Type := parses → (exception + A) * parses.

Definition ret {A} (a : A) : handler A := λ log, (inr a, log).

Definition raise {A} (e : exception) : handler A := λ log, (inl e, log).

Definition bind {A B} (m : handler A) (k : A → handler B) : handler B :=
  λ log,
    match m log with
    | (inl e, log') => (inl e, log')
    | (inr a, log') => k a log'
    end.

Global Instance handler_ret : MRet handler := @ret.
Global Instance handler_bind : MBind handler := λ A B k m, bind m k.

(** spaCy's convention for the root of a sentence: the token at position
    [k] is a root when it is its own head ([t.head] is [t]); it has no
    governing token. *)
Definition is_root (k : nat) (t : Token.t) : Prop := Token.head t = Some k.

(** [enumerate(l)] *)
Definition enumerate {A} (l : list A) : list (nat * A) := imap pair l.

(** ** Reference instances of the runtime

    Concrete stand-ins for what the repository takes from its
    environment; the examples at the end of the file run the service on
    them. *)

(** Case mappings on the ASCII letters (Python's agree with them on
    ASCII text). *)
Definition ascii_lower_cp (c : N) : N :=
  if ((65 <=? c) && (c <=? 90))%N then (c + 32)%N else c.

Definition ascii_upper_cp (c : N) : N :=
  if ((97 <=? c) && (c <=? 122))%N then (c - 32)%N else c.

Definition ascii_lower (s : str) : str := ascii_lower_cp <$> s.
Definition ascii_upper (s : str) : str := ascii_upper_cp <$> s.

(** Validators that accept exactly the declared JSON type. *)
Definition strict_str (j : json) : option str :=
  match j with JStr s => Some s | _ => None end.

Definition strict_bool (j : json) : option bool :=
  match j with JBool b => Some b | _ => None end.

(** Splitting on spaces; [cur] is the word being read. *)
Fixpoint words_from (cur : str) (s : str) : list str :=
  match s with
  | [] => match cur with [] => [] | _ => [cur] end
  | c :: rest =>
      if (c =? 32)%N
      then match cur with [] => words_from [] rest | _ => cur :: words_from [] rest end
      else words_from (cur ++ [c]) rest
  end.

(** A tokenizer-only pipeline: no lemma, tag, label or sentence
    boundaries, every token its own head. *)
Definition blank_pipeline : pipeline :=
  λ text,
    Some (Doc.mk
            (imap (λ i w, Token.mk w empty empty (Some i) empty) (words_from [] text))
            []
            (λ _, false)).

(** An annotating pipeline with one fixed analysis, two sentences of
    two tokens each. *)
Definition sample_doc : Doc.t :=
  Doc.mk
    [ Token.mk (lit "Dogs") (lit "Dog") (lit "noun") (Some 1) (lit "nsubj");
      Token.mk (lit "bark") (lit "bark") (lit "verb") (Some 1) (lit "ROOT");
      Token.mk (lit "Go") empty empty (Some 2) empty;
      Token.mk (lit "now") (lit "now") (lit "ADV") (Some 2) (lit "advmod") ]
    [ Span.mk 0 9; Span.mk 10 16 ]
    (λ _, true).

Definition sample_pipeline : pipeline := λ _, Some sample_doc.

(** A pipeline whose single token has no head object ([t.head] is
    [None]): the case the handler's [else None] provides for. *)
Definition headless_doc : Doc.t :=
  Doc.mk
    [ Token.mk (lit "Hm") (lit "hm") (lit "INTJ") None (lit "ROOT") ]
    [ Span.mk 0 2 ]
    (λ _, true).

Definition headless_pipeline : pipeline := λ _, Some headless_doc.

(** A pipeline whose every call raises. *)
Definition failing_pipeline : pipeline := λ _, None.

Definition load_fails : str → list str → option pipeline := λ _ _, None.
Definition load_sample : str → list str → option pipeline := λ _ _, Some sample_pipeline.

Definition env_open : gmap str str := ∅.
Definition env_keyed : gmap str str := {[ lit "SPACY_INTERNAL_KEY" := lit "s3cret" ]}.

(** Requests and bodies used in the examples. *)
Definition req_bare : Request.t := Request.mk [].
Definition req_good : Request.t :=
  Request.mk [(lit "accept", lit "*/*"); (lit "x-internal-key", lit "s3cret")].
Definition req_bad : Request.t :=
  Request.mk [(lit "x-internal-key", lit "guess")].

Definition body_all : ProcessBody.t :=
  ProcessBody.mk (lit "Dogs bark Go now") (Some true) (Some true) (Some true).
Definition body_none : ProcessBody.t :=
  ProcessBody.mk (lit "Dogs bark Go now") (Some false) (Some false) (Some false).
Definition body_hi : ProcessBody.t :=
  ProcessBody.mk (lit "hi there") (Some true) (Some true) (Some true).
Definition body_blank : ProcessBody.t :=
  ProcessBody.mk empty (Some true) (Some true) (Some true).

Definition raw_no_text : gmap str json := {[ lit "wantDeps" := JBool false ]}.
Definition raw_empty_text : gmap str json :=
  <[ lit "text" := JStr empty ]> raw_no_text.
Definition raw_null_flags : gmap str json :=
  {[ lit "text" := JStr (lit "hi there");
     lit "wantTokens" := JNull;
     lit "wantSents" := JNull ]}.

Definition body_hm : ProcessBody.t :=
  ProcessBody.mk (lit "Hm") (Some false) (Some false) (Some true).

Definition raw_hi : gmap str json := {[ lit "text" := JStr (lit "hi there") ]}.

Definition req_good_only : Request.t :=
  Request.mk [(lit "x-internal-key", lit "s3cret")].

Definition body_tokens_only : ProcessBody.t :=
  ProcessBody.mk (lit "Dogs bark Go now") (Some true) None (Some false).

Definition env_model : gmap str str := {[ lit "SPACY_MODEL" := lit "en_core_web_sm" ]}.

Definition placeholders (tokens : list TokenRecord.t) (sents : list SentenceSpan.t)
    (deps : list DependencyEdge.t) : Response.t :=
  Response.mk tokens sents deps
    (Sarcasm.mk false 0.0%float)
    (Context.mk (lit "general") 0.1%float)
    (PhraseEdges.mk []).

(** The parses of [blank_pipeline] for "hi there" and for the empty
    text. *)
Definition hi_doc : Doc.t :=
  Doc.mk
    [ Token.mk (lit "hi") empty empty (Some 0) empty;
      Token.mk (lit "there") empty empty (Some 1) empty ]
    []
    (λ _, false).

Definition blank_doc : Doc.t := Doc.mk [] [] (λ _, false).

(** What the service is expected to answer to [body_all] on
    [sample_pipeline]. *)
Definition sample_response : Response.t :=
  placeholders
    [ TokenRecord.mk (lit "Dogs") (lit "dog") (lit "NOUN") 0;
      TokenRecord.mk (lit "bark") (lit "bark") (lit "VERB") 1;
      TokenRecord.mk (lit "Go") (lit "go") (lit "X") 2;
      TokenRecord.mk (lit "now") (lit "now") (lit "ADV") 3 ]
    [ SentenceSpan.mk 0 9; SentenceSpan.mk 10 16 ]
    [ DependencyEdge.mk 0 (Some 1) (lit "nsubj");
      DependencyEdge.mk 1 (Some 1) (lit "ROOT");
      DependencyEdge.mk 2 (Some 2) empty;
      DependencyEdge.mk 3 (Some 2) (lit "advmod") ].

(** What it is expected to answer to [body_hi] on [blank_pipeline]. *)
Definition blank_response : Response.t :=
  placeholders
    [ TokenRecord.mk (lit "hi") (lit "hi") (lit "X") 0;
      TokenRecord.mk (lit "there") (lit "there") (lit "X") 1 ]
    [ SentenceSpan.mk 0 8 ]
    [ DependencyEdge.mk 0 (Some 0) empty;
      DependencyEdge.mk 1 (Some 1) empty ].

(** ** The service *)

Section Service.

(** ** Process environment and runtime *)

Variable environ : gmap str str.
Variable spacy_load : str → list str → option pipeline.
Variable English : pipeline.
Variable lower upper : str → str.
Variable validate_str : json → option str.
Variable validate_bool : json → option bool.

(** [os.getenv(name, default)] *)
Definition getenv (name default_ : str) : str :=
  match environ !! name with
  | Some v => v
  | None => default_
  end.

Definition INTERNAL_KEY : str := getenv (lit "SPACY_INTERNAL_KEY") empty.
Definition MODEL : str := getenv (lit "SPACY_MODEL") (lit "en_core_web_md").

(** [try: nlp = spacy.load(...) except Exception: nlp = English()] *)
Definition nlp : pipeline :=
  match spacy_load MODEL [lit "ner"] with
  | Some p => p
  | None => English
  end.

(** Calling the pipeline from the handler: the call is logged, and an
    exception of the pipeline propagates. *)
Definition call_nlp (text : str) : handler Doc.t :=
  λ log,
    match nlp text with
    | Some doc => (inr doc, log ++ [text])
    | None => (inl PipelineError, log ++ [text])
    end.

Definition token_record (it : nat * Token.t) : TokenRecord.t :=
  let '(i, t) := it in
  TokenRecord.mk
    (Token.text t)
    (lower (str_or (Token.lemma_ t) (Token.text t)))
    (upper (str_or (Token.pos_ t) (lit "X")))
    i.

Definition sentence_span (s : Span.t) : SentenceSpan.t :=
  SentenceSpan.mk (Span.start_char s) (Span.end_char s).

Definition dependency_edge (it : nat * Token.t) : DependencyEdge.t :=
  let '(i, t) := it in
  DependencyEdge.mk
    i
    (match Token.head t with Some h => Some h | None => None end)
    (Token.dep_ t).

Definition process (req : Request.t) (body : ProcessBody.t) : handler Response.t :=
  if str_truthy INTERNAL_KEY
     && negb (bool_decide (Request.get req (lit "x-internal-key") = Some INTERNAL_KEY))
  then raise (HTTPException 401 (lit "unauthorized"))
  else
    doc ← call_nlp (str_or (ProcessBody.text body) empty);
    let tokens :=
      if optbool_truthy (ProcessBody.wantTokens body)
      then token_record <$> enumerate (Doc.tokens doc)
      else [] in
    let sents :=
      if optbool_truthy (ProcessBody.wantSents body)
         && Doc.has_annotation doc (lit "SENT_START")
      then sentence_span <$> Doc.sents doc
      else if optbool_truthy (ProcessBody.wantSents body)
      then [SentenceSpan.mk 0 (len (str_or (ProcessBody.text body) empty))]
      else [] in
    let deps :=
      if optbool_truthy (ProcessBody.wantDeps body)
      then dependency_edge <$> enumerate (Doc.tokens doc)
      else [] in
    mret (Response.mk tokens sents deps
           (Sarcasm.mk false 0.0%float)
           (Context.mk (lit "general") 0.1%float)
           (PhraseEdges.mk [])).

(** ** Validation of the body against [ProcessBody]

    [text: str] has no default: the field is required.
    [wantX: Optional[bool] = True]: an absent field takes the default,
    an explicit null is [None], anything else goes through the [bool]
    validator.  [None] as a result means the body is rejected. *)

Definition required {A} (validate : json → option A)
    (raw : gmap str json) (name : str) : option A :=
  match raw !! name with
  | None => None
  | Some j => validate j
  end.

Definition optional_default {A} (validate : json → option A) (default_ : option A)
    (raw : gmap str json) (name : str) : option (option A) :=
  match raw !! name with
  | None => Some default_
  | Some JNull => Some None
  | Some j => Some <$> validate j
  end.

Definition ProcessBody_validate (raw : gmap str json) : option ProcessBody.t :=
  text ← required validate_str raw (lit "text");
  wantTokens ← optional_default validate_bool (Some true) raw (lit "wantTokens");
  wantSents ← optional_default validate_bool (Some true) raw (lit "wantSents");
  wantDeps ← optional_default validate_bool (Some true) raw (lit "wantDeps");
  Some (ProcessBody.mk text wantTokens wantSents wantDeps).

(** [@app.post("/process")]: the framework validates the JSON body and
    only then calls the handler. *)
Definition post_process (req : Request.t) (raw : gmap str json) : handler Response.t :=
  match ProcessBody_validate raw with
  | None => raise RequestValidationError
  | Some body => process req body
  end.

(** [@app.get("/health")] *)
Definition health : handler Health.t :=
  mret (Health.mk (lit "ok") MODEL).

(** The request passes the gate of the handler's first statement. *)
Definition authorized (req : Request.t) : Prop :=
  INTERNAL_KEY = empty ∨ Request.get req (lit "x-internal-key") = Some INTERNAL_KEY.

(** The gate of the handler, as a boolean. *)
Definition gate (req : Request.t) : bool :=
  str_truthy INTERNAL_KEY
  && negb (bool_decide (Request.get req (lit "x-internal-key") = Some INTERNAL_KEY)).

(** [r] is the response the handler builds from the parse [doc]. *)
Definition built_from (body : ProcessBody.t) (doc : Doc.t) (r : Response.t) : Prop :=
  Response.tokens r =
    (if optbool_truthy (ProcessBody.wantTokens body)
     then token_record <$> enumerate (Doc.tokens doc) else [])
  ∧ Response.sents r =
    (if optbool_truthy (ProcessBody.wantSents body)
     then if Doc.has_annotation doc (lit "SENT_START")
          then sentence_span <$> Doc.sents doc
          else [SentenceSpan.mk 0 (len (ProcessBody.text body))]
     else [])
  ∧ Response.deps r =
    (if optbool_truthy (ProcessBody.wantDeps body)
     then dependency_edge <$> enumerate (Doc.tokens doc) else [])
  ∧ Response.sarcasm r = Sarcasm.mk false 0.0%float
  ∧ Response.context r = Context.mk (lit "general") 0.1%float
  ∧ Response.phraseEdges r = PhraseEdges.mk [].

(** Fixed points of the case mappings. *)
Definition is_lowercase (s : str) : Prop := lower s = s.
Definition is_uppercase (s : str) : Prop := upper s = s.

(** ** Basic facts *)

Lemma str_or_empty (s : str) : str_or s empty = s.
Proof. by destruct s. Qed.

Lemma str_truthy_nonempty (s : str) : str_truthy s = true ↔ s ≠ empty.
Proof. destruct s; simpl; split; (done || congruence). Qed.

Lemma optbool_truthy_true (o : option bool) : optbool_truthy o = true ↔ o = Some true.
Proof. destruct o as [[]|]; simpl; split; (done || congruence). Qed.

Lemma enumerate_lookup {A} (l : list A) (k : nat) :
  enumerate l !! k = pair k <$> l !! k.
Proof. unfold enumerate. apply list_lookup_imap. Qed.

Lemma enumerate_length {A} (l : list A) : length (enumerate l) = length l.
Proof. unfold enumerate. apply length_imap. Qed.

Lemma enumerate_indices {A} (l : list A) : fst <$> enumerate l = seq 0 (length l).
Proof.
  unfold enumerate. rewrite fmap_imap.
  rewrite <- (list_fmap_id (seq 0 (length l))).
  rewrite <- (imap_seq_0 l id). by apply imap_ext.
Qed.

Lemma gate_open (req : Request.t) : gate req = false ↔ authorized req.
Proof.
  unfold gate, authorized. destruct INTERNAL_KEY as [|c key] eqn:Hkey; simpl.
  - split; auto.
  - rewrite negb_false_iff, bool_decide_eq_true. split; [auto|].
    intros [?|?]; [discriminate|done].
Qed.

Lemma gate_closed (req : Request.t) :
  gate req = true ↔
  INTERNAL_KEY ≠ empty ∧ Request.get req (lit "x-internal-key") ≠ Some INTERNAL_KEY.
Proof.
  rewrite <- not_false_iff_true, gate_open. unfold authorized. split.
  - intros Hn. split; intros Hy; apply Hn; auto.
  - intros [Hkey Hhdr] [?|?]; done.
Qed.

(** A rejected request: the exception is raised before anything else. *)
Lemma process_rejected (req : Request.t) (body : ProcessBody.t) (log : parses) :
  gate req = true →
  process req body log = (inl (HTTPException 401 (lit "unauthorized")), log).
Proof. unfold process, gate. by intros ->. Qed.

(** An accepted request whose parse raises. *)
Lemma process_parse_raises (req : Request.t) (body : ProcessBody.t) (log : parses) :
  gate req = false →
  nlp (ProcessBody.text body) = None →
  process req body log = (inl PipelineError, log ++ [ProcessBody.text body]).
Proof.
  unfold process, gate. intros -> Hnlp.
  unfold mbind, handler_bind, bind, call_nlp.
  by rewrite str_or_empty, Hnlp.
Qed.

(** An accepted request whose parse returns [doc]. *)
Lemma process_accepted (req : Request.t) (body : ProcessBody.t) (log : parses) (doc : Doc.t) :
  gate req = false →
  nlp (ProcessBody.text body) = Some doc →
  ∃ r : Response.t,
    process req body log = (inr r, log ++ [ProcessBody.text body])
    ∧ built_from body doc r.
Proof.
  unfold process, gate. intros -> Hnlp.
  unfold mbind, handler_bind, bind, call_nlp.
  rewrite str_or_empty, Hnlp.
  eexists. split; [reflexivity|]. unfold built_from. simpl.
  repeat split.
  destruct (optbool_truthy (ProcessBody.wantSents body)),
    (Doc.has_annotation doc (lit "SENT_START")); reflexivity.
Qed.

(** Every response comes from an accepted request and one parse. *)
Lemma process_returns (req : Request.t) (body : ProcessBody.t) (log log' : parses) (r : Response.t) :
  process req body log = (inr r, log') →
  ∃ doc, authorized req
    ∧ nlp (ProcessBody.text body) = Some doc
    ∧ log' = log ++ [ProcessBody.text body]
    ∧ built_from body doc r.
Proof.
  intros Hrun. destruct (gate req) eqn:Hgate.
  - rewrite process_rejected in Hrun by done. discriminate.
  - destruct (nlp (ProcessBody.text body)) as [doc|] eqn:Hnlp.
    + destruct (process_accepted req body log doc Hgate Hnlp) as (r' & Hrun' & Hr').
      rewrite Hrun' in Hrun. injection Hrun as -> <-.
      exists doc. by rewrite <- gate_open.
    + rewrite process_parse_raises in Hrun by done. discriminate.
Qed.

Lemma token_record_index (l : list Token.t) :
  TokenRecord.i <$> (token_record <$> enumerate l) = seq 0 (length l).
Proof.
  rewrite <- list_fmap_compose, <- enumerate_indices.
  apply list_fmap_ext. by intros k [i t] _.
Qed.

Lemma dependency_edge_index (l : list Token.t) :
  DependencyEdge.i <$> (dependency_edge <$> enumerate l) = seq 0 (length l).
Proof.
  rewrite <- list_fmap_compose, <- enumerate_indices.
  apply list_fmap_ext. by intros k [i t] _.
Qed.

Lemma token_record_lookup (l : list Token.t) (k : nat) :
  (token_record <$> enumerate l) !! k = (λ t, token_record (k, t)) <$> l !! k.
Proof. rewrite list_lookup_fmap, enumerate_lookup. by destruct (l !! k). Qed.

Lemma dependency_edge_lookup (l : list Token.t) (k : nat) :
  (dependency_edge <$> enumerate l) !! k = (λ t, dependency_edge (k, t)) <$> l !! k.
Proof. rewrite list_lookup_fmap, enumerate_lookup. by destruct (l !! k). Qed.

(** ** The authorization gate *)

(** The gate of the handler, on a body that passed validation: with a
    non-empty secret configured, a request whose [x-internal-key] header
    is missing or differs from the secret fails with
    [HTTPException 401 "unauthorized"] and leaves the log of pipeline
    calls untouched (no parse, no response); a request whose header
    equals the secret goes on: the text is parsed once and, unless the
    pipeline itself raises, a response is returned. *)
Theorem secret_gate (req : Request.t) (body : ProcessBody.t) (log : parses) :
  INTERNAL_KEY ≠ empty →
  (Request.get req (lit "x-internal-key") ≠ Some INTERNAL_KEY →
     process req body log = (inl (HTTPException 401 (lit "unauthorized")), log))
  ∧ (Request.get req (lit "x-internal-key") = Some INTERNAL_KEY →
     match nlp (ProcessBody.text body) with
     | Some doc =>
         ∃ r, process req body log = (inr r, log ++ [ProcessBody.text body])
              ∧ built_from body doc r
     | None =>
         process req body log = (inl PipelineError, log ++ [ProcessBody.text body])
     end).
Proof.
  intros Hkey. split; intros Hhdr.
  - apply process_rejected, gate_closed. done.
  - assert (gate req = false) as Hgate by (apply gate_open; by right).
    destruct (nlp (ProcessBody.text body)) as [doc|] eqn:Hnlp.
    + by apply process_accepted.
    + by apply process_parse_raises.
Qed.

(** C1, as the code has it: with a non-empty secret configured, the
    endpoint answers a request whose body validates according to its
    [x-internal-key] header: missing or different from the secret, it
    fails with [HTTPException 401 "unauthorized"] and nothing is parsed;
    equal to the secret, the text is parsed once and, unless the pipeline
    itself raises, a response is returned.  A request whose body does
    not validate is rejected by the validation before the key is looked
    at, whatever its header, and nothing is parsed either. *)
Theorem secret_gate_valid_body (req : Request.t) (raw : gmap str json) (log : parses) :
  INTERNAL_KEY ≠ empty →
  (ProcessBody_validate raw = None →
     post_process req raw log = (inl RequestValidationError, log))
  ∧ (∀ body, ProcessBody_validate raw = Some body →
     (Request.get req (lit "x-internal-key") ≠ Some INTERNAL_KEY →
        post_process req raw log = (inl (HTTPException 401 (lit "unauthorized")), log))
     ∧ (Request.get req (lit "x-internal-key") = Some INTERNAL_KEY →
        match nlp (ProcessBody.text body) with
        | Some doc =>
            ∃ r, post_process req raw log = (inr r, log ++ [ProcessBody.text body])
                 ∧ built_from body doc r
        | None =>
            post_process req raw log = (inl PipelineError, log ++ [ProcessBody.text body])
        end)).
Proof.
  intros Hkey. unfold post_process. split.
  - by intros ->.
  - intros body ->. exact (secret_gate req body log Hkey).
Qed.


(** ** The three sequences *)

(** C3: for an authorized request with [wantTokens] and [wantDeps] true
    whose text the pipeline parses into [doc], the response has as many
    Token Records as Dependency Edges, and the [i] fields of both
    sequences are 0, 1, ..., n-1 in order, n the number of tokens of
    [doc]. *)
Theorem tokens_deps_aligned
    (req : Request.t) (body : ProcessBody.t) (log : parses) (doc : Doc.t) :
  authorized req →
  nlp (ProcessBody.text body) = Some doc →
  ProcessBody.wantTokens body = Some true →
  ProcessBody.wantDeps body = Some true →
  ∃ r, process req body log = (inr r, log ++ [ProcessBody.text body])
    ∧ length (Response.tokens r) = length (Response.deps r)
    ∧ length (Response.tokens r) = length (Doc.tokens doc)
    ∧ TokenRecord.i <$> Response.tokens r = seq 0 (length (Doc.tokens doc))
    ∧ DependencyEdge.i <$> Response.deps r = seq 0 (length (Doc.tokens doc)).
Proof.
  intros Hauth%gate_open Hnlp Htok Hdep.
  destruct (process_accepted req body log doc Hauth Hnlp)
    as (r & Hrun & Htokens & _ & Hdeps & _).
  rewrite Htok in Htokens. rewrite Hdep in Hdeps. simpl in Htokens, Hdeps.
  exists r. rewrite Htokens, Hdeps.
  rewrite !length_fmap, enumerate_length.
  auto using token_record_index, dependency_edge_index.
Qed.

(** C4: for an authorized request with [wantSents] true whose parsed
    document has no sentence-boundary annotation, [sents] is the single
    span from 0 to the length of the text; for the empty text it is the
    span from 0 to 0. *)
Theorem sents_fallback_span
    (req : Request.t) (body : ProcessBody.t) (log : parses) (doc : Doc.t) :
  authorized req →
  nlp (ProcessBody.text body) = Some doc →
  ProcessBody.wantSents body = Some true →
  Doc.has_annotation doc (lit "SENT_START") = false →
  ∃ r, process req body log = (inr r, log ++ [ProcessBody.text body])
    ∧ Response.sents r = [SentenceSpan.mk 0 (len (ProcessBody.text body))]
    ∧ (ProcessBody.text body = empty → Response.sents r = [SentenceSpan.mk 0 0]).
Proof.
  intros Hauth%gate_open Hnlp Hwant Hann.
  destruct (process_accepted req body log doc Hauth Hnlp)
    as (r & Hrun & _ & Hsents & _).
  rewrite Hwant, Hann in Hsents. simpl in Hsents.
  exists r. repeat split; [done..|].
  intros Hempty. by rewrite Hsents, Hempty.
Qed.

(** C5: in every Token Record of every response, [lemma] is the
    lowercased pipeline lemma when that lemma is non-empty and the
    lowercased raw text of the token otherwise, and it is a lowercase
    string; [pos] is the uppercased pipeline tag when that tag is
    non-empty and the literal "X" otherwise, and it is an uppercase
    string.  Of the runtime it is assumed that lowercasing a lowercased
    string and uppercasing an uppercased one change nothing, and that
    "X" is its own uppercase. *)
Theorem token_record_lemma_pos
    (req : Request.t) (body : ProcessBody.t) (log log' : parses)
    (r : Response.t) (k : nat) (rec : TokenRecord.t) :
  (∀ s, lower (lower s) = lower s) →
  (∀ s, upper (upper s) = upper s) →
  upper (lit "X") = lit "X" →
  process req body log = (inr r, log') →
  Response.tokens r !! k = Some rec →
  ∃ doc t,
    nlp (ProcessBody.text body) = Some doc
    ∧ Doc.tokens doc !! k = Some t
    ∧ TokenRecord.lemma rec =
        lower (if decide (Token.lemma_ t = empty) then Token.text t else Token.lemma_ t)
    ∧ is_lowercase (TokenRecord.lemma rec)
    ∧ TokenRecord.pos rec =
        (if decide (Token.pos_ t = empty) then lit "X" else upper (Token.pos_ t))
    ∧ is_uppercase (TokenRecord.pos rec).
Proof.
  intros Hlower Hupper HX Hrun Hrec.
  destruct (process_returns req body log log' r Hrun)
    as (doc & _ & Hnlp & _ & Htokens & _).
  rewrite Htokens in Hrec.
  destruct (optbool_truthy (ProcessBody.wantTokens body)); [|done].
  rewrite token_record_lookup in Hrec.
  destruct (Doc.tokens doc !! k) as [t|] eqn:Ht; [|done].
  injection Hrec as <-. exists doc, t. simpl.
  unfold is_lowercase, is_uppercase, str_or.
  repeat split; try done.
  - by destruct (Token.lemma_ t).
  - destruct (Token.pos_ t); simpl; [apply HX|done].
Qed.

(** C6, as the code has it: for an authorized request with [wantDeps]
    true, the Dependency Edge of each token carries in [head] the index
    of the token's head as the pipeline gives it, and null exactly when
    the pipeline gives no head object ([t.head] is [None]); the root of
    a sentence, which is its own head, gets its own index, not null. *)
Theorem dependency_edge_head
    (req : Request.t) (body : ProcessBody.t) (log : parses) (doc : Doc.t) :
  authorized req →
  nlp (ProcessBody.text body) = Some doc →
  ProcessBody.wantDeps body = Some true →
  ∃ r, process req body log = (inr r, log ++ [ProcessBody.text body])
    ∧ ∀ k t, Doc.tokens doc !! k = Some t →
        ∃ e, Response.deps r !! k = Some e
          ∧ DependencyEdge.i e = k
          ∧ (∀ h, Token.head t = Some h → DependencyEdge.head e = Some h)
          ∧ (DependencyEdge.head e = None ↔ Token.head t = None)
          ∧ (is_root k t →
             DependencyEdge.head e = Some (DependencyEdge.i e)
             ∧ DependencyEdge.head e ≠ None).
Proof.
  intros Hauth%gate_open Hnlp Hwant.
  destruct (process_accepted req body log doc Hauth Hnlp)
    as (r & Hrun & _ & _ & Hdeps & _).
  rewrite Hwant in Hdeps. simpl in Hdeps.
  exists r. split; [done|]. intros k t Ht.
  exists (dependency_edge (k, t)).
  rewrite Hdeps, dependency_edge_lookup, Ht. simpl.
  split; [done|]. split; [done|]. split; [by intros h ->|].
  split; [by destruct (Token.head t)|].
  unfold is_root. by intros ->.
Qed.

(** C10: [dep] has no fallback: the Dependency Edge of each token
    carries the pipeline's relation label as it is, so a token without
    label gets the empty string. *)
Theorem dependency_edge_dep_verbatim
    (req : Request.t) (body : ProcessBody.t) (log : parses) (doc : Doc.t) :
  authorized req →
  nlp (ProcessBody.text body) = Some doc →
  ProcessBody.wantDeps body = Some true →
  ∃ r, process req body log = (inr r, log ++ [ProcessBody.text body])
    ∧ ∀ k t, Doc.tokens doc !! k = Some t →
        ∃ e, Response.deps r !! k = Some e
          ∧ DependencyEdge.dep e = Token.dep_ t
          ∧ (Token.dep_ t = empty → DependencyEdge.dep e = empty).
Proof.
  intros Hauth%gate_open Hnlp Hwant.
  destruct (process_accepted req body log doc Hauth Hnlp)
    as (r & Hrun & _ & _ & Hdeps & _).
  rewrite Hwant in Hdeps. simpl in Hdeps.
  exists r. split; [done|]. intros k t Ht.
  exists (dependency_edge (k, t)).
  by rewrite Hdeps, dependency_edge_lookup, Ht.
Qed.

(** C7: an authorized request with the three flags false gets a response
    whose [tokens], [sents] and [deps] are empty; and every response,
    whatever the flags, carries the three constant placeholders. *)
Theorem flags_off_and_placeholders
    (req : Request.t) (body : ProcessBody.t) (log : parses) :
  (∀ doc,
     authorized req →
     nlp (ProcessBody.text body) = Some doc →
     ProcessBody.wantTokens body = Some false →
     ProcessBody.wantSents body = Some false →
     ProcessBody.wantDeps body = Some false →
     ∃ r, process req body log = (inr r, log ++ [ProcessBody.text body])
       ∧ Response.tokens r = [] ∧ Response.sents r = [] ∧ Response.deps r = [])
  ∧ (∀ r log',
     process req body log = (inr r, log') →
     Response.sarcasm r = Sarcasm.mk false 0.0%float
     ∧ Response.context r = Context.mk (lit "general") 0.1%float
     ∧ Response.phraseEdges r = PhraseEdges.mk []).
Proof.
  split.
  - intros doc Hauth%gate_open Hnlp Htok Hsent Hdep.
    destruct (process_accepted req body log doc Hauth Hnlp)
      as (r & Hrun & Htokens & Hsents & Hdeps & _).
    rewrite Htok in Htokens. rewrite Hsent in Hsents. rewrite Hdep in Hdeps.
    by exists r.
  - intros r log' Hrun.
    destruct (process_returns req body log log' r Hrun)
      as (doc & _ & _ & _ & _ & _ & _ & Hs & Hc & Hp).
    done.
Qed.

(** ** Validation of the body *)

Lemma optional_default_null {A} (validate : json → option A) (d : option A)
    (raw : gmap str json) (name : str) :
  raw !! name = Some JNull → optional_default validate d raw name = Some None.
Proof. unfold optional_default. by intros ->. Qed.

Lemma optional_default_absent {A} (validate : json → option A) (d : option A)
    (raw : gmap str json) (name : str) :
  raw !! name = None → optional_default validate d raw name = Some d.
Proof. unfold optional_default. by intros ->. Qed.

Lemma ProcessBody_validate_fields (raw : gmap str json) (body : ProcessBody.t) :
  ProcessBody_validate raw = Some body →
  required validate_str raw (lit "text") = Some (ProcessBody.text body)
  ∧ optional_default validate_bool (Some true) raw (lit "wantTokens")
      = Some (ProcessBody.wantTokens body)
  ∧ optional_default validate_bool (Some true) raw (lit "wantSents")
      = Some (ProcessBody.wantSents body)
  ∧ optional_default validate_bool (Some true) raw (lit "wantDeps")
      = Some (ProcessBody.wantDeps body).
Proof.
  unfold ProcessBody_validate. intros Hv.
  destruct (required _ _ _) as [text|]; [|done].
  destruct (optional_default _ _ _ (lit "wantTokens")) as [wt|]; [|done].
  destruct (optional_default _ _ _ (lit "wantSents")) as [ws|]; [|done].
  destruct (optional_default _ _ _ (lit "wantDeps")) as [wd|]; [|done].
  simpl in Hv. by injection Hv as <-.
Qed.

Lemma post_process_returns
    (req : Request.t) (raw : gmap str json) (log log' : parses) (r : Response.t) :
  post_process req raw log = (inr r, log') →
  ∃ body, ProcessBody_validate raw = Some body
    ∧ process req body log = (inr r, log').
Proof.
  unfold post_process. destruct (ProcessBody_validate raw) as [body|]; [eauto|done].
Qed.

(** C2, as the code has it: a body without [text] does not validate;
    the request is rejected before the handler is called, nothing is
    parsed and no response is built. *)
Theorem missing_text_rejected (req : Request.t) (raw : gmap str json) (log : parses) :
  raw !! lit "text" = None →
  ProcessBody_validate raw = None
  ∧ post_process req raw log = (inl RequestValidationError, log).
Proof.
  intros Habsent.
  assert (ProcessBody_validate raw = None) as Hv.
  { unfold ProcessBody_validate, required. by rewrite Habsent. }
  split; [done|]. unfold post_process. by rewrite Hv.
Qed.

(** C9: a flag that is explicitly null validates as [None], while an
    absent flag takes the default [True]; a request that sets
    [wantTokens], [wantSents] or [wantDeps] to null is served like any
    other, and in every response to it the corresponding sequence is
    empty. *)
Theorem explicit_null_flag_is_false (req : Request.t) (raw : gmap str json) (log : parses) :
  (∀ name, raw !! name = Some JNull →
     optional_default validate_bool (Some true) raw name = Some None)
  ∧ (∀ name, raw !! name = None →
     optional_default validate_bool (Some true) raw name = Some (Some true))
  ∧ (∀ body doc,
     ProcessBody_validate raw = Some body →
     authorized req →
     nlp (ProcessBody.text body) = Some doc →
     ∃ r, post_process req raw log = (inr r, log ++ [ProcessBody.text body]))
  ∧ (∀ r log',
     post_process req raw log = (inr r, log') →
     (raw !! lit "wantTokens" = Some JNull → Response.tokens r = [])
     ∧ (raw !! lit "wantSents" = Some JNull → Response.sents r = [])
     ∧ (raw !! lit "wantDeps" = Some JNull → Response.deps r = [])).
Proof.
  split; [|split; [|split]].
  - intros name. apply optional_default_null.
  - intros name. apply optional_default_absent.
  - intros body doc Hv Hauth%gate_open Hnlp.
    destruct (process_accepted req body log doc Hauth Hnlp) as (r & Hrun & _).
    exists r. unfold post_process. by rewrite Hv.
  - intros r log' (body & Hv & Hrun)%post_process_returns.
    destruct (ProcessBody_validate_fields raw body Hv) as (_ & Hwt & Hws & Hwd).
    destruct (process_returns req body log log' r Hrun)
      as (doc & _ & _ & _ & Htokens & Hsents & Hdeps & _).
    repeat split; intros Hnull.
    + rewrite optional_default_null in Hwt by done.
      injection Hwt as Hwt. by rewrite <- Hwt in Htokens.
    + rewrite optional_default_null in Hws by done.
      injection Hws as Hws. by rewrite <- Hws in Hsents.
    + rewrite optional_default_null in Hwd by done.
      injection Hwd as Hwd. by rewrite <- Hwd in Hdeps.
Qed.

(** ** Further properties of the service *)

(** X1: the liveness check never raises and parses nothing; it answers
    status "ok" and the value of SPACY_MODEL when that variable is set
    (be it the empty string), "en_core_web_md" when it is unset; and the
    name it reports is the one the startup asked spaCy to load with
    "ner" disabled: the pipeline in use is either the one loaded under
    that name or the fallback. *)
Theorem health_reports_model (log : parses) :
  ∃ h, health log = (inr h, log)
    ∧ Health.status h = lit "ok"
    ∧ (∀ v, environ !! lit "SPACY_MODEL" = Some v → Health.model h = v)
    ∧ (environ !! lit "SPACY_MODEL" = None → Health.model h = lit "en_core_web_md")
    ∧ (spacy_load (Health.model h) [lit "ner"] = Some nlp
       ∨ spacy_load (Health.model h) [lit "ner"] = None ∧ nlp = English).
Proof.
  exists (Health.mk (lit "ok") MODEL). simpl.
  split; [done|]. split; [done|].
  unfold nlp, MODEL, getenv.
  split; [by intros v ->|]. split; [by intros ->|].
  destruct (spacy_load _ _); auto.
Qed.

(** X2: when loading the model fails at startup, an authorized request
    is served from the parse of the fallback pipeline; when loading
    succeeds, from the parse of the loaded pipeline, whatever the
    fallback would have answered. *)
Theorem fallback_pipeline_serves (req : Request.t) (body : ProcessBody.t) (log : parses) :
  authorized req →
  (spacy_load MODEL [lit "ner"] = None →
   ∀ doc, English (ProcessBody.text body) = Some doc →
     ∃ r, process req body log = (inr r, log ++ [ProcessBody.text body])
          ∧ built_from body doc r)
  ∧ (∀ p, spacy_load MODEL [lit "ner"] = Some p →
     ∀ doc, p (ProcessBody.text body) = Some doc →
       ∃ r, process req body log = (inr r, log ++ [ProcessBody.text body])
            ∧ built_from body doc r).
Proof.
  intros Hauth%gate_open. split.
  - intros Hload doc Hdoc. apply process_accepted; [done|].
    unfold nlp. by rewrite Hload.
  - intros p Hload doc Hdoc. apply process_accepted; [done|].
    unfold nlp. by rewrite Hload.
Qed.

(** X3: one call of the handler hands to the pipeline exactly the text
    of the body, once, when the request is authorized (be the text empty,
    and whatever the flags ask for), and nothing when it is not. *)
Theorem process_parses_once (req : Request.t) (body : ProcessBody.t) (log : parses) :
  (authorized req → (process req body log).2 = log ++ [ProcessBody.text body])
  ∧ (¬ authorized req → (process req body log).2 = log).
Proof.
  rewrite <- gate_open. split.
  - intros Hgate.
    destruct (nlp (ProcessBody.text body)) as [doc|] eqn:Hnlp.
    + by destruct (process_accepted req body log doc Hgate Hnlp) as (r & -> & _).
    + by rewrite process_parse_raises.
  - intros Hgate%not_false_is_true. by rewrite process_rejected.
Qed.

(** X4: the only HTTP error the endpoint raises of its own is the 401:
    an [HTTPException] means that the body was valid, a non-empty secret
    is configured, the request's header is missing or different, the
    status is 401 with detail "unauthorized", and nothing was parsed. *)
Theorem http_exception_only_unauthorized
    (req : Request.t) (raw : gmap str json) (log log' : parses) (code : nat) (detail : str) :
  post_process req raw log = (inl (HTTPException code detail), log') →
  code = 401 ∧ detail = lit "unauthorized" ∧ log' = log
  ∧ INTERNAL_KEY ≠ empty
  ∧ Request.get req (lit "x-internal-key") ≠ Some INTERNAL_KEY
  ∧ ∃ body, ProcessBody_validate raw = Some body.
Proof.
  unfold post_process. intros Hrun.
  destruct (ProcessBody_validate raw) as [body|]; [|done].
  destruct (gate req) eqn:Hgate.
  - rewrite process_rejected in Hrun by done. injection Hrun as <- <- <-.
    apply gate_closed in Hgate as [Hkey Hhdr]. eauto 10.
  - destruct (nlp (ProcessBody.text body)) as [doc|] eqn:Hnlp.
    + destruct (process_accepted req body log doc Hgate Hnlp) as (r & Hr & _).
      rewrite Hr in Hrun. discriminate.
    + rewrite process_parse_raises in Hrun by done. discriminate.
Qed.

(** X5: for a valid body, the endpoint fails with the pipeline's error,
    after handing the text to the pipeline once, exactly when the
    request is authorized and the pipeline raises on the text: the
    handler catches nothing. *)
Theorem pipeline_error_propagates
    (req : Request.t) (raw : gmap str json) (body : ProcessBody.t) (log : parses) :
  ProcessBody_validate raw = Some body →
  post_process req raw log = (inl PipelineError, log ++ [ProcessBody.text body])
  ↔ authorized req ∧ nlp (ProcessBody.text body) = None.
Proof.
  intros Hv. unfold post_process. rewrite Hv. rewrite <- gate_open. split.
  - intros Hrun. destruct (gate req) eqn:Hgate.
    + rewrite process_rejected in Hrun by done. discriminate.
    + split; [done|].
      destruct (nlp (ProcessBody.text body)) as [doc|] eqn:Hnlp; [|done].
      destruct (process_accepted req body log doc Hgate Hnlp) as (r & Hr & _).
      rewrite Hr in Hrun. discriminate.
  - intros [Hgate Hnlp]. by apply process_parse_raises.
Qed.

(** X6: for an authorized request with [wantSents] true whose parsed
    document carries sentence boundaries, [sents] has one span per
    sentence of the document, in order, with the sentence's character
    offsets; a document without sentences gives the empty sequence. *)
Theorem sents_from_annotation
    (req : Request.t) (body : ProcessBody.t) (log : parses) (doc : Doc.t) :
  authorized req →
  nlp (ProcessBody.text body) = Some doc →
  ProcessBody.wantSents body = Some true →
  Doc.has_annotation doc (lit "SENT_START") = true →
  ∃ r, process req body log = (inr r, log ++ [ProcessBody.text body])
    ∧ length (Response.sents r) = length (Doc.sents doc)
    ∧ SentenceSpan.start <$> Response.sents r = Span.start_char <$> Doc.sents doc
    ∧ SentenceSpan.end_ <$> Response.sents r = Span.end_char <$> Doc.sents doc
    ∧ (Doc.sents doc = [] → Response.sents r = []).
Proof.
  intros Hauth%gate_open Hnlp Hwant Hann.
  destruct (process_accepted req body log doc Hauth Hnlp)
    as (r & Hrun & _ & Hsents & _).
  rewrite Hwant, Hann in Hsents. simpl in Hsents.
  exists r. rewrite Hsents, length_fmap, <- !list_fmap_compose.
  repeat split; try done. by intros ->.
Qed.

(** X7: for an authorized request with [wantTokens] true, the [text]
    fields of the Token Records are the texts of the document's tokens,
    in order and unchanged (no case mapping, no fallback). *)
Theorem token_record_text_verbatim
    (req : Request.t) (body : ProcessBody.t) (log : parses) (doc : Doc.t) :
  authorized req →
  nlp (ProcessBody.text body) = Some doc →
  ProcessBody.wantTokens body = Some true →
  ∃ r, process req body log = (inr r, log ++ [ProcessBody.text body])
    ∧ TokenRecord.text <$> Response.tokens r = Token.text <$> Doc.tokens doc.
Proof.
  intros Hauth%gate_open Hnlp Hwant.
  destruct (process_accepted req body log doc Hauth Hnlp)
    as (r & Hrun & Htokens & _).
  rewrite Hwant in Htokens. simpl in Htokens.
  exists r. split; [done|]. rewrite Htokens.
  apply list_eq. intros k.
  rewrite !list_lookup_fmap, enumerate_lookup.
  by destruct (Doc.tokens doc !! k).
Qed.

(** X8: each sequence of the response depends on the body only through
    the text and the truth value of its own flag: two requests with the
    same text whose [wantTokens] (resp. [wantSents], [wantDeps]) flags are
    both truthy or both falsy get the same [tokens] (resp. [sents],
    [deps]), whatever the other two flags are. *)
Theorem flags_are_independent
    (req1 req2 : Request.t) (body1 body2 : ProcessBody.t)
    (log1 log2 log1' log2' : parses) (r1 r2 : Response.t) :
  ProcessBody.text body1 = ProcessBody.text body2 →
  process req1 body1 log1 = (inr r1, log1') →
  process req2 body2 log2 = (inr r2, log2') →
  (optbool_truthy (ProcessBody.wantTokens body1)
     = optbool_truthy (ProcessBody.wantTokens body2) →
   Response.tokens r1 = Response.tokens r2)
  ∧ (optbool_truthy (ProcessBody.wantSents body1)
       = optbool_truthy (ProcessBody.wantSents body2) →
     Response.sents r1 = Response.sents r2)
  ∧ (optbool_truthy (ProcessBody.wantDeps body1)
       = optbool_truthy (ProcessBody.wantDeps body2) →
     Response.deps r1 = Response.deps r2).
Proof.
  intros Htext Hrun1 Hrun2.
  destruct (process_returns req1 body1 log1 log1' r1 Hrun1)
    as (doc1 & _ & Hnlp1 & _ & Htok1 & Hsent1 & Hdep1 & _).
  destruct (process_returns req2 body2 log2 log2' r2 Hrun2)
    as (doc2 & _ & Hnlp2 & _ & Htok2 & Hsent2 & Hdep2 & _).
  rewrite Htext, Hnlp2 in Hnlp1. injection Hnlp1 as <-.
  rewrite Htok1, Htok2, Hsent1, Hsent2, Hdep1, Hdep2, Htext.
  repeat split; by intros ->.
Qed.

(** X9: the request's headers weigh on the outcome only through the
    authorization decision: two requests that are both authorized, or
    both not, get the same outcome for the same body. *)
Theorem headers_only_decide_access
    (req1 req2 : Request.t) (body : ProcessBody.t) (log : parses) :
  (authorized req1 ↔ authorized req2) →
  process req1 body log = process req2 body log.
Proof.
  rewrite <- !gate_open. intros Hsame.
  assert (gate req1 = gate req2) as Hgate.
  { destruct (gate req1), (gate req2); try done.
    - exact (proj2 Hsame eq_refl).
    - symmetry. exact (proj1 Hsame eq_refl). }
  unfold process. fold (gate req1). fold (gate req2). by rewrite Hgate.
Qed.

(** X10: a body that carries a valid [text] and none of the three flags
    is handled as if the three flags were true. *)
Theorem absent_flags_default_true
    (req : Request.t) (raw : gmap str json) (log : parses) (j : json) (text : str) :
  raw !! lit "text" = Some j →
  validate_str j = Some text →
  raw !! lit "wantTokens" = None →
  raw !! lit "wantSents" = None →
  raw !! lit "wantDeps" = None →
  ProcessBody_validate raw = Some (ProcessBody.mk text (Some true) (Some true) (Some true))
  ∧ post_process req raw log
    = process req (ProcessBody.mk text (Some true) (Some true) (Some true)) log.
Proof.
  intros Hj Htext Htok Hsent Hdep.
  assert (ProcessBody_validate raw
          = Some (ProcessBody.mk text (Some true) (Some true) (Some true))) as Hv.
  { unfold ProcessBody_validate, required.
    rewrite Hj, Htext. simpl.
    by rewrite !optional_default_absent. }
  split; [done|]. unfold post_process. by rewrite Hv.
Qed.

(** X11: the endpoint answers with a validation error exactly when the
    body does not validate, whether or not the request is authorized;
    nothing is parsed then. *)
Theorem validation_error_iff_invalid (req : Request.t) (raw : gmap str json) (log : parses) :
  (ProcessBody_validate raw = None →
   post_process req raw log = (inl RequestValidationError, log))
  ∧ (∀ log', post_process req raw log = (inl RequestValidationError, log') →
     ProcessBody_validate raw = None ∧ log' = log).
Proof.
  unfold post_process. split.
  - by intros ->.
  - intros log' Hrun.
    destruct (ProcessBody_validate raw) as [body|]; [|by injection Hrun as <-].
    destruct (gate req) eqn:Hgate.
    + rewrite process_rejected in Hrun by done. discriminate.
    + destruct (nlp (ProcessBody.text body)) as [doc|] eqn:Hnlp.
      * destruct (process_accepted req body log doc Hgate Hnlp) as (r & Hr & _).
        rewrite Hr in Hrun. discriminate.
      * rewrite process_parse_raises in Hrun by done. discriminate.
Qed.

End Service.


(** ** The service on the reference instances *)

Lemma ascii_lower_idem (s : str) : ascii_lower (ascii_lower s) = ascii_lower s.
Proof.
  unfold ascii_lower. rewrite <- list_fmap_compose.
  apply list_fmap_ext. intros _ c _. simpl. unfold ascii_lower_cp.
  destruct (N.leb_spec 65 c), (N.leb_spec c 90); simpl;
    repeat match goal with
    | |- context [(?a <=? ?b)%N] => destruct (N.leb_spec a b); simpl
    end; done || lia.
Qed.

Lemma ascii_upper_idem (s : str) : ascii_upper (ascii_upper s) = ascii_upper s.
Proof.
  unfold ascii_upper. rewrite <- list_fmap_compose.
  apply list_fmap_ext. intros _ c _. simpl. unfold ascii_upper_cp.
  destruct (N.leb_spec 97 c), (N.leb_spec c 122); simpl;
    repeat match goal with
    | |- context [(?a <=? ?b)%N] => destruct (N.leb_spec a b); simpl
    end; done || lia.
Qed.

Example keyed_sample_run :
  process env_keyed load_sample blank_pipeline ascii_lower ascii_upper req_good body_all []
  = (inr sample_response, [lit "Dogs bark Go now"]).
Proof. vm_compute. reflexivity. Qed.

Example open_blank_run :
  process env_open load_fails blank_pipeline ascii_lower ascii_upper req_bare body_hi []
  = (inr blank_response, [lit "hi there"]).
Proof. vm_compute. reflexivity. Qed.

Example keyed_bad_run :
  process env_keyed load_sample blank_pipeline ascii_lower ascii_upper req_bad body_all []
  = (inl (HTTPException 401 (lit "unauthorized")), []).
Proof. vm_compute. reflexivity. Qed.

Example open_null_flags_run :
  post_process env_open load_fails blank_pipeline ascii_lower ascii_upper
    strict_str strict_bool req_bare raw_null_flags []
  = (inr (placeholders [] []
            [ DependencyEdge.mk 0 (Some 0) empty; DependencyEdge.mk 1 (Some 1) empty ]),
     [lit "hi there"]).
Proof. vm_compute. reflexivity. Qed.

Example open_empty_text_run :
  post_process env_open load_fails blank_pipeline ascii_lower ascii_upper
    strict_str strict_bool req_bare raw_empty_text []
  = (inr (placeholders [] [SentenceSpan.mk 0 0] []), [empty]).
Proof. vm_compute. reflexivity. Qed.

Ltac run := vm_compute; (reflexivity || discriminate).

(** The handler of the keyed service: a wrong key and a missing key are
    refused with nothing parsed, the right key is served. *)
Lemma secret_gate_witness :
  INTERNAL_KEY env_keyed ≠ empty
  ∧ process env_keyed load_sample blank_pipeline ascii_lower ascii_upper req_bad body_all []
    = (inl (HTTPException 401 (lit "unauthorized")), [])
  ∧ process env_keyed load_sample blank_pipeline ascii_lower ascii_upper req_bare body_all []
    = (inl (HTTPException 401 (lit "unauthorized")), [])
  ∧ ∃ r,
      process env_keyed load_sample blank_pipeline ascii_lower ascii_upper req_good body_all []
      = (inr r, [] ++ [ProcessBody.text body_all])
      ∧ built_from ascii_lower ascii_upper body_all sample_doc r.
Proof.
  assert (INTERNAL_KEY env_keyed ≠ empty) as Hkey by run.
  split; [exact Hkey|]. split; [|split].
  - apply (proj1 (secret_gate env_keyed load_sample blank_pipeline
                    ascii_lower ascii_upper req_bad body_all [] Hkey)). run.
  - apply (proj1 (secret_gate env_keyed load_sample blank_pipeline
                    ascii_lower ascii_upper req_bare body_all [] Hkey)). run.
  - apply (proj2 (secret_gate env_keyed load_sample blank_pipeline
                    ascii_lower ascii_upper req_good body_all [] Hkey)). run.
Defined.

(** C1, as stated, fails on a request whose body does not validate: on
    the keyed service a body without [text] gets the validation error
    with a wrong key (not the 401) and with the right key (it is not
    processed). *)
Lemma secret_gate_counterexample :
  INTERNAL_KEY env_keyed ≠ empty
  ∧ Request.get req_bad (lit "x-internal-key") ≠ Some (INTERNAL_KEY env_keyed)
  ∧ post_process env_keyed load_sample blank_pipeline ascii_lower ascii_upper
      strict_str strict_bool req_bad raw_no_text []
    = (inl RequestValidationError, [])
  ∧ post_process env_keyed load_sample blank_pipeline ascii_lower ascii_upper
      strict_str strict_bool req_bad raw_no_text []
    ≠ (inl (HTTPException 401 (lit "unauthorized")), [])
  ∧ Request.get req_good (lit "x-internal-key") = Some (INTERNAL_KEY env_keyed)
  ∧ post_process env_keyed load_sample blank_pipeline ascii_lower ascii_upper
      strict_str strict_bool req_good raw_no_text []
    = (inl RequestValidationError, [])
  ∧ ¬ (∃ r log',
         post_process env_keyed load_sample blank_pipeline ascii_lower ascii_upper
           strict_str strict_bool req_good raw_no_text []
         = (inr r, log')).
Proof.
  split; [run|]. split; [run|]. split; [run|]. split; [run|].
  split; [run|]. split; [run|].
  intros (r & log' & Hrun). vm_compute in Hrun. discriminate.
Qed.

(** C1 amended, on the keyed service: a valid body with a wrong key and
    with the right key, and a body without [text]. *)
Lemma secret_gate_valid_body_witness :
  INTERNAL_KEY env_keyed ≠ empty
  ∧ ProcessBody_validate strict_str strict_bool raw_hi = Some body_hi
  ∧ ProcessBody_validate strict_str strict_bool raw_no_text = None
  ∧ post_process env_keyed load_sample blank_pipeline ascii_lower ascii_upper
      strict_str strict_bool req_bad raw_hi []
    = (inl (HTTPException 401 (lit "unauthorized")), [])
  ∧ (∃ r,
      post_process env_keyed load_sample blank_pipeline ascii_lower ascii_upper
        strict_str strict_bool req_good raw_hi []
      = (inr r, [] ++ [ProcessBody.text body_hi])
      ∧ built_from ascii_lower ascii_upper body_hi sample_doc r)
  ∧ post_process env_keyed load_sample blank_pipeline ascii_lower ascii_upper
      strict_str strict_bool req_bad raw_no_text []
    = (inl RequestValidationError, []).
Proof.
  assert (INTERNAL_KEY env_keyed ≠ empty) as Hkey by run.
  assert (ProcessBody_validate strict_str strict_bool raw_hi = Some body_hi) as Hv by run.
  assert (ProcessBody_validate strict_str strict_bool raw_no_text = None) as Hnv by run.
  split; [exact Hkey|]. split; [exact Hv|]. split; [exact Hnv|].
  split; [|split].
  - apply (proj1 (proj2 (secret_gate_valid_body env_keyed load_sample blank_pipeline
                           ascii_lower ascii_upper strict_str strict_bool
                           req_bad raw_hi [] Hkey) body_hi Hv)). run.
  - apply (proj2 (proj2 (secret_gate_valid_body env_keyed load_sample blank_pipeline
                           ascii_lower ascii_upper strict_str strict_bool
                           req_good raw_hi [] Hkey) body_hi Hv)). run.
  - exact (proj1 (secret_gate_valid_body env_keyed load_sample blank_pipeline
                    ascii_lower ascii_upper strict_str strict_bool
                    req_bad raw_no_text [] Hkey) Hnv).
Defined.

(** C2, as stated, fails: a body without [text] is rejected, while the
    same body with [text] set to the empty string is served. *)
Lemma missing_text_counterexample :
  raw_no_text !! lit "text" = None
  ∧ post_process env_open load_fails blank_pipeline ascii_lower ascii_upper
      strict_str strict_bool req_bare raw_no_text []
    = (inl RequestValidationError, [])
  ∧ post_process env_open load_fails blank_pipeline ascii_lower ascii_upper
      strict_str strict_bool req_bare raw_empty_text []
    = (inr (placeholders [] [SentenceSpan.mk 0 0] []), [empty])
  ∧ ¬ (∃ r log',
         post_process env_open load_fails blank_pipeline ascii_lower ascii_upper
           strict_str strict_bool req_bare raw_no_text []
         = (inr r, log')).
Proof.
  split; [run|]. split; [run|]. split; [apply open_empty_text_run|].
  intros (r & log' & Hrun). vm_compute in Hrun. discriminate.
Qed.

(** C2 amended, on a body that lacks [text]: rejected whatever the key. *)
Lemma missing_text_rejected_witness :
  raw_no_text !! lit "text" = None
  ∧ ProcessBody_validate strict_str strict_bool raw_no_text = None
  ∧ post_process env_keyed load_sample blank_pipeline ascii_lower ascii_upper
      strict_str strict_bool req_good raw_no_text []
    = (inl RequestValidationError, []).
Proof.
  assert (raw_no_text !! lit "text" = None) as Habsent by run.
  split; [exact Habsent|].
  exact (missing_text_rejected env_keyed load_sample blank_pipeline ascii_lower ascii_upper
           strict_str strict_bool req_good raw_no_text [] Habsent).
Defined.

(** C3 on the keyed service. *)
Lemma tokens_deps_aligned_witness :
  authorized env_keyed req_good
  ∧ nlp env_keyed load_sample blank_pipeline (ProcessBody.text body_all) = Some sample_doc
  ∧ ProcessBody.wantTokens body_all = Some true
  ∧ ProcessBody.wantDeps body_all = Some true
  ∧ ∃ r,
      process env_keyed load_sample blank_pipeline ascii_lower ascii_upper req_good body_all []
      = (inr r, [] ++ [ProcessBody.text body_all])
      ∧ length (Response.tokens r) = length (Response.deps r)
      ∧ length (Response.tokens r) = length (Doc.tokens sample_doc)
      ∧ TokenRecord.i <$> Response.tokens r = seq 0 (length (Doc.tokens sample_doc))
      ∧ DependencyEdge.i <$> Response.deps r = seq 0 (length (Doc.tokens sample_doc)).
Proof.
  assert (authorized env_keyed req_good) as Hauth by (right; run).
  repeat (split; [done|]).
  exact (tokens_deps_aligned env_keyed load_sample blank_pipeline ascii_lower ascii_upper
           req_good body_all [] sample_doc Hauth eq_refl eq_refl eq_refl).
Defined.

(** C4 on the tokenizer-only service, for "hi there" and for the empty
    text. *)
Lemma sents_fallback_span_witness :
  authorized env_open req_bare
  ∧ nlp env_open load_fails blank_pipeline (ProcessBody.text body_hi) = Some hi_doc
  ∧ nlp env_open load_fails blank_pipeline (ProcessBody.text body_blank) = Some blank_doc
  ∧ (∃ r,
      process env_open load_fails blank_pipeline ascii_lower ascii_upper req_bare body_hi []
      = (inr r, [] ++ [ProcessBody.text body_hi])
      ∧ Response.sents r = [SentenceSpan.mk 0 8])
  ∧ (∃ r,
      process env_open load_fails blank_pipeline ascii_lower ascii_upper req_bare body_blank []
      = (inr r, [] ++ [ProcessBody.text body_blank])
      ∧ Response.sents r = [SentenceSpan.mk 0 0]).
Proof.
  assert (authorized env_open req_bare) as Hauth by (left; run).
  assert (nlp env_open load_fails blank_pipeline (ProcessBody.text body_hi) = Some hi_doc)
    as Hhi by run.
  assert (nlp env_open load_fails blank_pipeline (ProcessBody.text body_blank) = Some blank_doc)
    as Hblank by run.
  repeat (split; [done|]). split.
  - destruct (sents_fallback_span env_open load_fails blank_pipeline ascii_lower ascii_upper
                req_bare body_hi [] hi_doc Hauth Hhi eq_refl eq_refl)
      as (r & Hrun & Hsents & _).
    by exists r.
  - destruct (sents_fallback_span env_open load_fails blank_pipeline ascii_lower ascii_upper
                req_bare body_blank [] blank_doc Hauth Hblank eq_refl eq_refl)
      as (r & Hrun & _ & Hsents).
    exists r. split; [done|]. by apply Hsents.
Defined.

(** C5 on the keyed service, at the token "Go", which the sample
    pipeline leaves without lemma and tag. *)
Lemma token_record_lemma_pos_witness :
  (∀ s, ascii_lower (ascii_lower s) = ascii_lower s)
  ∧ (∀ s, ascii_upper (ascii_upper s) = ascii_upper s)
  ∧ ascii_upper (lit "X") = lit "X"
  ∧ process env_keyed load_sample blank_pipeline ascii_lower ascii_upper req_good body_all []
    = (inr sample_response, [lit "Dogs bark Go now"])
  ∧ Response.tokens sample_response !! 2
    = Some (TokenRecord.mk (lit "Go") (lit "go") (lit "X") 2)
  ∧ ∃ doc t,
      nlp env_keyed load_sample blank_pipeline (ProcessBody.text body_all) = Some doc
      ∧ Doc.tokens doc !! 2 = Some t
      ∧ lit "go" = ascii_lower (if decide (Token.lemma_ t = empty)
                                then Token.text t else Token.lemma_ t)
      ∧ is_lowercase ascii_lower (lit "go")
      ∧ lit "X" = (if decide (Token.pos_ t = empty)
                   then lit "X" else ascii_upper (Token.pos_ t))
      ∧ is_uppercase ascii_upper (lit "X").
Proof.
  split; [exact ascii_lower_idem|]. split; [exact ascii_upper_idem|].
  split; [reflexivity|]. split; [exact keyed_sample_run|]. split; [reflexivity|].
  exact (token_record_lemma_pos env_keyed load_sample blank_pipeline ascii_lower ascii_upper
           req_good body_all [] [lit "Dogs bark Go now"] sample_response 2
           (TokenRecord.mk (lit "Go") (lit "go") (lit "X") 2)
           ascii_lower_idem ascii_upper_idem eq_refl keyed_sample_run eq_refl).
Defined.

(** C6, as stated, fails at the root of a sentence: in the sample
    document the token "bark" (position 1, label "ROOT") is its own
    head, and its Dependency Edge carries head 1, not null. *)
Lemma sentence_root_head_counterexample :
  process env_keyed load_sample blank_pipeline ascii_lower ascii_upper req_good body_all []
  = (inr sample_response, [lit "Dogs bark Go now"])
  ∧ Doc.tokens sample_doc !! 1
    = Some (Token.mk (lit "bark") (lit "bark") (lit "verb") (Some 1) (lit "ROOT"))
  ∧ is_root 1 (Token.mk (lit "bark") (lit "bark") (lit "verb") (Some 1) (lit "ROOT"))
  ∧ Response.deps sample_response !! 1
    = Some (DependencyEdge.mk 1 (Some 1) (lit "ROOT"))
  ∧ DependencyEdge.head (DependencyEdge.mk 1 (Some 1) (lit "ROOT")) ≠ None.
Proof.
  split; [exact keyed_sample_run|]. split; [reflexivity|]. split; [reflexivity|].
  split; [reflexivity|]. simpl. discriminate.
Qed.

(** C6 amended: on the keyed service the root "bark" gets its own index;
    on a pipeline that gives a token no head object the edge carries
    null. *)
Lemma dependency_edge_head_witness :
  authorized env_keyed req_good
  ∧ nlp env_keyed load_sample blank_pipeline (ProcessBody.text body_all) = Some sample_doc
  ∧ ProcessBody.wantDeps body_all = Some true
  ∧ (∃ r e,
      process env_keyed load_sample blank_pipeline ascii_lower ascii_upper req_good body_all []
      = (inr r, [] ++ [ProcessBody.text body_all])
      ∧ Response.deps r !! 1 = Some e
      ∧ DependencyEdge.head e = Some 1)
  ∧ authorized env_open req_bare
  ∧ nlp env_open load_fails headless_pipeline (ProcessBody.text body_hm) = Some headless_doc
  ∧ ProcessBody.wantDeps body_hm = Some true
  ∧ (∃ r e,
      process env_open load_fails headless_pipeline ascii_lower ascii_upper req_bare body_hm []
      = (inr r, [] ++ [ProcessBody.text body_hm])
      ∧ Response.deps r !! 0 = Some e
      ∧ DependencyEdge.head e = None).
Proof.
  assert (authorized env_keyed req_good) as Hkeyed by (right; run).
  assert (authorized env_open req_bare) as Hopen by (left; run).
  split; [exact Hkeyed|]. split; [reflexivity|]. split; [reflexivity|].
  split; [|split; [exact Hopen|split; [reflexivity|split; [reflexivity|]]]].
  - destruct (dependency_edge_head env_keyed load_sample blank_pipeline ascii_lower ascii_upper
                req_good body_all [] sample_doc Hkeyed eq_refl eq_refl)
      as (r & Hrun & Hedges).
    destruct (Hedges 1 _ eq_refl) as (e & He & _ & _ & _ & Hroot).
    exists r, e. split; [exact Hrun|]. split; [exact He|].
    destruct (Hroot eq_refl) as [Hhead _].
    destruct (Hedges 1 _ eq_refl) as (e' & He' & Hi & _).
    rewrite He in He'. injection He' as <-. by rewrite Hi in Hhead.
  - destruct (dependency_edge_head env_open load_fails headless_pipeline ascii_lower ascii_upper
                req_bare body_hm [] headless_doc Hopen eq_refl eq_refl)
      as (r & Hrun & Hedges).
    destruct (Hedges 0 _ eq_refl) as (e & He & _ & _ & Hnone & _).
    exists r, e. split; [exact Hrun|]. split; [exact He|].
    exact (proj2 Hnone eq_refl).
Defined.

(** C10 on the tokenizer-only service, whose tokens have no label. *)
Lemma dependency_edge_dep_verbatim_witness :
  authorized env_open req_bad
  ∧ nlp env_open load_fails blank_pipeline (ProcessBody.text body_hi) = Some hi_doc
  ∧ ProcessBody.wantDeps body_hi = Some true
  ∧ ∃ r,
      process env_open load_fails blank_pipeline ascii_lower ascii_upper req_bad body_hi []
      = (inr r, [] ++ [ProcessBody.text body_hi])
      ∧ ∀ k t, Doc.tokens hi_doc !! k = Some t →
          ∃ e, Response.deps r !! k = Some e
            ∧ DependencyEdge.dep e = Token.dep_ t
            ∧ (Token.dep_ t = empty → DependencyEdge.dep e = empty).
Proof.
  assert (authorized env_open req_bad) as Hauth by (left; run).
  assert (nlp env_open load_fails blank_pipeline (ProcessBody.text body_hi) = Some hi_doc)
    as Hhi by run.
  repeat (split; [done|]).
  exact (dependency_edge_dep_verbatim env_open load_fails blank_pipeline ascii_lower ascii_upper
           req_bad body_hi [] hi_doc Hauth Hhi eq_refl).
Defined.

(** C7 on the keyed service: the three flags off, and the placeholders
    of the full response. *)
Lemma flags_off_and_placeholders_witness :
  authorized env_keyed req_good
  ∧ nlp env_keyed load_sample blank_pipeline (ProcessBody.text body_none) = Some sample_doc
  ∧ (∃ r,
      process env_keyed load_sample blank_pipeline ascii_lower ascii_upper req_good body_none []
      = (inr r, [] ++ [ProcessBody.text body_none])
      ∧ Response.tokens r = [] ∧ Response.sents r = [] ∧ Response.deps r = [])
  ∧ Response.sarcasm sample_response = Sarcasm.mk false 0.0%float
  ∧ Response.context sample_response = Context.mk (lit "general") 0.1%float
  ∧ Response.phraseEdges sample_response = PhraseEdges.mk [].
Proof.
  assert (authorized env_keyed req_good) as Hauth by (right; run).
  repeat (split; [done|]). split.
  - exact (proj1 (flags_off_and_placeholders env_keyed load_sample blank_pipeline
                    ascii_lower ascii_upper req_good body_none [])
             sample_doc Hauth eq_refl eq_refl eq_refl eq_refl).
  - exact (proj2 (flags_off_and_placeholders env_keyed load_sample blank_pipeline
                    ascii_lower ascii_upper req_good body_all [])
             sample_response _ keyed_sample_run).
Defined.


(** C9 on the tokenizer-only service: [wantTokens] and [wantSents] are
    null, [wantDeps] is absent. *)
Lemma explicit_null_flag_is_false_witness :
  raw_null_flags !! lit "wantTokens" = Some JNull
  ∧ raw_null_flags !! lit "wantSents" = Some JNull
  ∧ raw_null_flags !! lit "wantDeps" = None
  ∧ optional_default strict_bool (Some true) raw_null_flags (lit "wantTokens") = Some None
  ∧ optional_default strict_bool (Some true) raw_null_flags (lit "wantDeps") = Some (Some true)
  ∧ ∃ r log',
      post_process env_open load_fails blank_pipeline ascii_lower ascii_upper
        strict_str strict_bool req_bare raw_null_flags [] = (inr r, log')
      ∧ Response.tokens r = [] ∧ Response.sents r = [] ∧ Response.deps r ≠ [].
Proof.
  assert (raw_null_flags !! lit "wantTokens" = Some JNull) as Htok by run.
  assert (raw_null_flags !! lit "wantSents" = Some JNull) as Hsent by run.
  assert (raw_null_flags !! lit "wantDeps" = None) as Hdep by run.
  destruct (explicit_null_flag_is_false env_open load_fails blank_pipeline
              ascii_lower ascii_upper strict_str strict_bool req_bare raw_null_flags [])
    as (Hnull & Habsent & _ & Hresp).
  split; [exact Htok|]. split; [exact Hsent|]. split; [exact Hdep|].
  split; [by apply Hnull|]. split; [by apply Habsent|].
  destruct (Hresp _ _ open_null_flags_run) as (Hr1 & Hr2 & _).
  eexists _, _. split; [exact open_null_flags_run|].
  split; [by apply Hr1|]. split; [by apply Hr2|]. done.
Defined.

(** ** The further properties on the reference instances *)

Example keyed_bad_raw_run :
  post_process env_keyed load_sample blank_pipeline ascii_lower ascii_upper
    strict_str strict_bool req_bad raw_hi []
  = (inl (HTTPException 401 (lit "unauthorized")), []).
Proof. vm_compute. reflexivity. Qed.

Example keyed_tokens_only_run :
  process env_keyed load_sample blank_pipeline ascii_lower ascii_upper
    req_good_only body_tokens_only [lit "earlier"]
  = (inr (placeholders (Response.tokens sample_response) [] []),
     [lit "earlier"; lit "Dogs bark Go now"]).
Proof. vm_compute. reflexivity. Qed.

(** X1 with SPACY_MODEL set. *)
Lemma health_reports_model_witness :
  env_model !! lit "SPACY_MODEL" = Some (lit "en_core_web_sm")
  ∧ ∃ h, health env_model [] = (inr h, [])
      ∧ Health.status h = lit "ok"
      ∧ Health.model h = lit "en_core_web_sm".
Proof.
  assert (env_model !! lit "SPACY_MODEL" = Some (lit "en_core_web_sm")) as Hset by run.
  split; [exact Hset|].
  destruct (health_reports_model env_model load_fails blank_pipeline [])
    as (h & Hrun & Hstatus & Hmodel & _).
  exists h. split; [exact Hrun|]. split; [exact Hstatus|].
  exact (Hmodel _ Hset).
Defined.

(** X2 on the tokenizer-only service, whose load fails. *)
Lemma fallback_pipeline_serves_witness :
  authorized env_open req_bare
  ∧ load_fails (MODEL env_open) [lit "ner"] = None
  ∧ blank_pipeline (ProcessBody.text body_hi) = Some hi_doc
  ∧ ∃ r,
      process env_open load_fails blank_pipeline ascii_lower ascii_upper req_bare body_hi []
      = (inr r, [] ++ [ProcessBody.text body_hi])
      ∧ built_from ascii_lower ascii_upper body_hi hi_doc r.
Proof.
  assert (authorized env_open req_bare) as Hauth by (left; run).
  assert (blank_pipeline (ProcessBody.text body_hi) = Some hi_doc) as Hdoc by run.
  split; [exact Hauth|]. split; [reflexivity|]. split; [exact Hdoc|].
  exact (proj1 (fallback_pipeline_serves env_open load_fails blank_pipeline
                  ascii_lower ascii_upper req_bare body_hi [] Hauth)
           eq_refl hi_doc Hdoc).
Defined.

(** X3 on the keyed service: the right key and a wrong key, after an
    earlier parse. *)
Lemma process_parses_once_witness :
  authorized env_keyed req_good
  ∧ ¬ authorized env_keyed req_bad
  ∧ (process env_keyed load_sample blank_pipeline ascii_lower ascii_upper
       req_good body_none [lit "earlier"]).2
    = [lit "earlier"; lit "Dogs bark Go now"]
  ∧ (process env_keyed load_sample blank_pipeline ascii_lower ascii_upper
       req_bad body_all [lit "earlier"]).2
    = [lit "earlier"].
Proof.
  assert (authorized env_keyed req_good) as Hgood by (right; run).
  assert (¬ authorized env_keyed req_bad) as Hbad.
  { intros [Hkey | Hhdr]; [vm_compute in Hkey | vm_compute in Hhdr]; discriminate. }
  split; [exact Hgood|]. split; [exact Hbad|]. split.
  - exact (proj1 (process_parses_once env_keyed load_sample blank_pipeline
                    ascii_lower ascii_upper req_good body_none [lit "earlier"]) Hgood).
  - exact (proj2 (process_parses_once env_keyed load_sample blank_pipeline
                    ascii_lower ascii_upper req_bad body_all [lit "earlier"]) Hbad).
Defined.

(** X4 on the keyed service, for a valid body and a wrong key. *)
Lemma http_exception_only_unauthorized_witness :
  post_process env_keyed load_sample blank_pipeline ascii_lower ascii_upper
    strict_str strict_bool req_bad raw_hi []
  = (inl (HTTPException 401 (lit "unauthorized")), [])
  ∧ INTERNAL_KEY env_keyed ≠ empty
  ∧ Request.get req_bad (lit "x-internal-key") ≠ Some (INTERNAL_KEY env_keyed)
  ∧ ∃ body, ProcessBody_validate strict_str strict_bool raw_hi = Some body.
Proof.
  split; [exact keyed_bad_raw_run|].
  destruct (http_exception_only_unauthorized env_keyed load_sample blank_pipeline
              ascii_lower ascii_upper strict_str strict_bool
              req_bad raw_hi [] [] 401 (lit "unauthorized") keyed_bad_raw_run)
    as (_ & _ & _ & Hkey & Hhdr & Hbody).
  split; [exact Hkey|]. split; [exact Hhdr|]. exact Hbody.
Defined.

(** X5 on an open service whose pipeline raises. *)
Lemma pipeline_error_propagates_witness :
  ProcessBody_validate strict_str strict_bool raw_hi = Some body_hi
  ∧ authorized env_open req_bare
  ∧ nlp env_open load_fails failing_pipeline (ProcessBody.text body_hi) = None
  ∧ post_process env_open load_fails failing_pipeline ascii_lower ascii_upper
      strict_str strict_bool req_bare raw_hi []
    = (inl PipelineError, [] ++ [ProcessBody.text body_hi]).
Proof.
  assert (ProcessBody_validate strict_str strict_bool raw_hi = Some body_hi) as Hv by run.
  assert (authorized env_open req_bare) as Hauth by (left; run).
  split; [exact Hv|]. split; [exact Hauth|]. split; [reflexivity|].
  exact (proj2 (pipeline_error_propagates env_open load_fails failing_pipeline
                  ascii_lower ascii_upper strict_str strict_bool
                  req_bare raw_hi body_hi [] Hv)
           (conj Hauth eq_refl)).
Defined.

(** X6 on the keyed service, whose sample document has two sentences. *)
Lemma sents_from_annotation_witness :
  authorized env_keyed req_good
  ∧ nlp env_keyed load_sample blank_pipeline (ProcessBody.text body_all) = Some sample_doc
  ∧ ProcessBody.wantSents body_all = Some true
  ∧ Doc.has_annotation sample_doc (lit "SENT_START") = true
  ∧ ∃ r,
      process env_keyed load_sample blank_pipeline ascii_lower ascii_upper req_good body_all []
      = (inr r, [] ++ [ProcessBody.text body_all])
      ∧ length (Response.sents r) = 2
      ∧ SentenceSpan.start <$> Response.sents r = [0; 10]
      ∧ SentenceSpan.end_ <$> Response.sents r = [9; 16].
Proof.
  assert (authorized env_keyed req_good) as Hauth by (right; run).
  split; [exact Hauth|]. split; [reflexivity|]. split; [reflexivity|].
  split; [reflexivity|].
  destruct (sents_from_annotation env_keyed load_sample blank_pipeline ascii_lower ascii_upper
              req_good body_all [] sample_doc Hauth eq_refl eq_refl eq_refl)
    as (r & Hrun & Hlen & Hstart & Hend & _).
  exists r. split; [exact Hrun|]. split; [exact Hlen|]. split; [exact Hstart|].
  exact Hend.
Defined.

(** X7 on the keyed service. *)
Lemma token_record_text_verbatim_witness :
  authorized env_keyed req_good
  ∧ nlp env_keyed load_sample blank_pipeline (ProcessBody.text body_all) = Some sample_doc
  ∧ ProcessBody.wantTokens body_all = Some true
  ∧ ∃ r,
      process env_keyed load_sample blank_pipeline ascii_lower ascii_upper req_good body_all []
      = (inr r, [] ++ [ProcessBody.text body_all])
      ∧ TokenRecord.text <$> Response.tokens r
        = [lit "Dogs"; lit "bark"; lit "Go"; lit "now"].
Proof.
  assert (authorized env_keyed req_good) as Hauth by (right; run).
  split; [exact Hauth|]. split; [reflexivity|]. split; [reflexivity|].
  exact (token_record_text_verbatim env_keyed load_sample blank_pipeline
           ascii_lower ascii_upper req_good body_all [] sample_doc Hauth eq_refl eq_refl).
Defined.

(** X8 on the keyed service: the same text asked with all flags on and
    with [wantTokens] alone. *)
Lemma flags_are_independent_witness :
  ProcessBody.text body_all = ProcessBody.text body_tokens_only
  ∧ optbool_truthy (ProcessBody.wantTokens body_all)
    = optbool_truthy (ProcessBody.wantTokens body_tokens_only)
  ∧ Response.tokens sample_response
    = Response.tokens (placeholders (Response.tokens sample_response) [] []).
Proof.
  split; [reflexivity|]. split; [reflexivity|].
  exact (proj1 (flags_are_independent env_keyed load_sample blank_pipeline
                  ascii_lower ascii_upper req_good req_good_only body_all body_tokens_only
                  [] [lit "earlier"] _ _ _ _ eq_refl keyed_sample_run keyed_tokens_only_run)
           eq_refl).
Defined.

(** X9 on the keyed service: two authorized requests with different
    headers. *)
Lemma headers_only_decide_access_witness :
  (authorized env_keyed req_good ↔ authorized env_keyed req_good_only)
  ∧ process env_keyed load_sample blank_pipeline ascii_lower ascii_upper req_good body_all []
    = process env_keyed load_sample blank_pipeline ascii_lower ascii_upper
        req_good_only body_all [].
Proof.
  assert (authorized env_keyed req_good) as Hgood by (right; run).
  assert (authorized env_keyed req_good_only) as Honly by (right; run).
  assert (authorized env_keyed req_good ↔ authorized env_keyed req_good_only) as Hsame
    by (split; intros _; assumption).
  split; [exact Hsame|].
  exact (headers_only_decide_access env_keyed load_sample blank_pipeline
           ascii_lower ascii_upper req_good req_good_only body_all [] Hsame).
Defined.

(** X10 on the tokenizer-only service, for a body that is only a text. *)
Lemma absent_flags_default_true_witness :
  raw_hi !! lit "text" = Some (JStr (lit "hi there"))
  ∧ strict_str (JStr (lit "hi there")) = Some (lit "hi there")
  ∧ raw_hi !! lit "wantTokens" = None
  ∧ raw_hi !! lit "wantSents" = None
  ∧ raw_hi !! lit "wantDeps" = None
  ∧ ProcessBody_validate strict_str strict_bool raw_hi = Some body_hi
  ∧ post_process env_open load_fails blank_pipeline ascii_lower ascii_upper
      strict_str strict_bool req_bare raw_hi []
    = process env_open load_fails blank_pipeline ascii_lower ascii_upper req_bare body_hi [].
Proof.
  assert (raw_hi !! lit "text" = Some (JStr (lit "hi there"))) as Htext by run.
  assert (raw_hi !! lit "wantTokens" = None) as Htok by run.
  assert (raw_hi !! lit "wantSents" = None) as Hsent by run.
  assert (raw_hi !! lit "wantDeps" = None) as Hdep by run.
  split; [exact Htext|]. split; [reflexivity|]. split; [exact Htok|].
  split; [exact Hsent|]. split; [exact Hdep|].
  exact (absent_flags_default_true env_open load_fails blank_pipeline ascii_lower ascii_upper
           strict_str strict_bool req_bare raw_hi [] _ _ Htext eq_refl Htok Hsent Hdep).
Defined.

(** X11 on the keyed service: a body without text and a wrong key. *)
Lemma validation_error_iff_invalid_witness :
  ProcessBody_validate strict_str strict_bool raw_no_text = None
  ∧ post_process env_keyed load_sample blank_pipeline ascii_lower ascii_upper
      strict_str strict_bool req_bad raw_no_text []
    = (inl RequestValidationError, []).
Proof.
  assert (ProcessBody_validate strict_str strict_bool raw_no_text = None) as Hv by run.
  split; [exact Hv|].
  exact (proj1 (validation_error_iff_invalid env_keyed load_sample blank_pipeline
                  ascii_lower ascii_upper strict_str strict_bool req_bad raw_no_text [])
           Hv).
Defined.
